(** * express-jobly: the SQL clause builders and the Company model

    A shallow embedding of [helpers/sql.js] and of the two revisions of
    [models/company.js], and the properties of the clause builders and of
    the model methods.

    JavaScript objects whose key order is observed ([Object.keys],
    [Object.values]) are association lists in own-property order; objects
    that are only read by key are finite maps of their own properties, and
    a read whose key is only known at run time also finds the members
    every object inherits from [Object.prototype].  Numbers are the integers
    (the values the models handle: counts and placeholder indices), printed
    in decimal as [Number::toString] prints every integer below 10^21. *)

From Stdlib Require Import ZArith String Ascii List Lia.
From stdpp Require Import base option list strings pretty gmap.

Local Open Scope string_scope.
Local Open Scope list_scope.

(** ** JavaScript values and the operators the sources use *)

Module Js.

(** Primitive values. *)
Inductive value : Type :=
| VUndefined
| VNull
| VBool (b : bool)
| VNum (n : Z)
| VStr (s : string).

#[global] Instance value_eq_dec : EqDecision value.
Proof. solve_decision. Defined.

(** What a model method hands back: a primitive, one row object, or the
    array of rows of a result set. *)
Inductive jsval : Type :=
| Prim (v : value)
| Obj (o : gmap string value)
| Arr (rows : list (gmap string value)).

(** The conversion of a string to a number ([Number(s)]) is left to the
    environment: nothing below depends on which strings are numeric. *)
Class JsEnv : Type := { StringToNumber : string → option Z }.

(** The double quote, and the line break of a template literal. *)
Definition dq : string := String (ascii_of_nat 34) EmptyString.
Definition nl : string := String (ascii_of_nat 10) EmptyString.

(** Property read [o.k] with a key written in the source, none of which
    names a member of [Object.prototype]: the own property, and
    [undefined] when the key is absent. *)
Definition read (o : gmap string value) (k : string) : value :=
  default VUndefined (o !! k).

(** [x !== undefined] *)
Definition defined (v : value) : bool :=
  match v with VUndefined => false | _ => true end.

(** ToBoolean *)
Definition ToBoolean (v : value) : bool :=
  match v with
  | VUndefined | VNull => false
  | VBool b => b
  | VNum n => negb (n =? 0)%Z
  | VStr s => negb (String.eqb s EmptyString)
  end.

Definition truthy (j : jsval) : bool :=
  match j with Prim v => ToBoolean v | Obj _ | Arr _ => true end.

(** [a || b] *)
Definition or (a b : value) : value := if ToBoolean a then a else b.

(** ToString, as a template literal applies it to a substitution. *)
Definition ToString (v : value) : string :=
  match v with
  | VUndefined => "undefined"
  | VNull => "null"
  | VBool true => "true"
  | VBool false => "false"
  | VNum n => pretty n
  | VStr s => s
  end.

(** ToNumber; [None] is NaN. *)
Definition ToNumber `{JsEnv} (v : value) : option Z :=
  match v with
  | VUndefined => None
  | VNull => Some 0%Z
  | VBool b => Some (if b then 1 else 0)%Z
  | VNum n => Some n
  | VStr s => StringToNumber s
  end.

(** [a > b]: two strings compare by code units, anything else as
    numbers, and a comparison with NaN is false. *)
Definition gt `{JsEnv} (a b : value) : bool :=
  match a, b with
  | VStr x, VStr y => String.ltb y x
  | _, _ =>
      match ToNumber a, ToNumber b with
      | Some x, Some y => (y <? x)%Z
      | _, _ => false
      end
  end.

(** [arr.join(sep)] on an array of strings. *)
Definition join (sep : string) (arr : list string) : string :=
  String.concat sep arr.

(** [rows[0]] of a result set. *)
Definition first (rows : list (gmap string value)) : jsval :=
  match rows with
  | [] => Prim VUndefined
  | r :: _ => Obj r
  end.

(** The members a plain object inherits from [Object.prototype], each
    with the text a template literal prints for it under Node: a built-in
    function prints as its name between [function] and the native-code
    body, and [__proto__] reads the prototype object itself. *)
Definition nativeFunction (name : string) : string :=
  "function " +:+ name +:+ "() { [native code] }".

Definition ObjectPrototype : list (string * string) :=
  [ ("constructor", nativeFunction "Object");
    ("__defineGetter__", nativeFunction "__defineGetter__");
    ("__defineSetter__", nativeFunction "__defineSetter__");
    ("hasOwnProperty", nativeFunction "hasOwnProperty");
    ("__lookupGetter__", nativeFunction "__lookupGetter__");
    ("__lookupSetter__", nativeFunction "__lookupSetter__");
    ("isPrototypeOf", nativeFunction "isPrototypeOf");
    ("propertyIsEnumerable", nativeFunction "propertyIsEnumerable");
    ("toString", nativeFunction "toString");
    ("valueOf", nativeFunction "valueOf");
    ("__proto__", "[object Object]");
    ("toLocaleString", nativeFunction "toLocaleString") ].

Definition inherited (k : string) : option string :=
  (list_to_map ObjectPrototype : gmap string string) !! k.

(** What a read with a computed key gives: a primitive, or an inherited
    member (a function or an object), known by the text it prints as. *)
Inductive reading : Type :=
| Primitive (v : value)
| Member (text : string).

(** [o[k]] with a computed key: the own property if there is one (also
    one that holds [undefined]), else the inherited member of that name,
    else [undefined]. *)
Definition readComputed (o : gmap string value) (k : string) : reading :=
  match o !! k with
  | Some v => Primitive v
  | None =>
      match inherited k with
      | Some text => Member text
      | None => Primitive VUndefined
      end
  end.

(** [a || b] and the template substitution, on a reading: a function or
    an object is truthy. *)
Definition orReading (a : reading) (b : value) : reading :=
  match a with
  | Primitive v => Primitive (or v b)
  | Member text => Member text
  end.

Definition ToStringReading (r : reading) : string :=
  match r with
  | Primitive v => ToString v
  | Member text => text
  end.

End Js.
Import Js.

(** ** expressError *)

Module ExpressError.

(** Modelled from the spec: the error classes of [../expressError],
    which the sources import and throw but which is not among them.  §7
    names a bad-request and a not-found condition, each carrying a
    message; [StoreError] is the failure of the query executor itself
    (§6), which the models let through. *)
Inductive error : Type :=
| BadRequestError (message : string)
| NotFoundError (message : string)
| StoreError (message : string).

Definition isBadRequest (e : error) : bool :=
  match e with BadRequestError _ => true | _ => false end.

Definition isNotFound (e : error) : bool :=
  match e with NotFoundError _ => true | _ => false end.

End ExpressError.
Import ExpressError.

(** ** helpers/sql.js *)

Module Sql.

Record update_clause : Type :=
  { setCols : string; values : list value }.

(** [sqlForPartialUpdate(dataToUpdate, jsToSql)].  [dataToUpdate] is the
    list of own properties in [Object.keys] order; [jsToSql[colName]] is
    a read with a computed key. *)
Definition sqlForPartialUpdate
    (dataToUpdate : list (string * value)) (jsToSql : gmap string value)
    : error + update_clause :=
  let keys := dataToUpdate.*1 in
  if (length keys =? 0)%nat then inl (BadRequestError "No data")
  else
    let cols :=
      imap (λ idx colName,
              dq +:+ ToStringReading
                       (orReading (readComputed jsToSql colName) (VStr colName))
                 +:+ dq +:+ "=$" +:+ pretty (idx + 1)%nat)
           keys in
    inr {| setCols := join ", " cols; values := dataToUpdate.*2 |}.

End Sql.
Import Sql.

(** ** The query executor *)

Module Db.

(** A model method is a program that returns, throws, or sends one
    statement to [db.query] and goes on with the rows of the answer. *)
Inductive prog (A : Type) : Type :=
| Ret (a : A)
| Throw (e : error)
| Query (sql : string) (params : list value)
        (k : list (gmap string value) → prog A).
Arguments Ret {A} a.
Arguments Throw {A} e.
Arguments Query {A} sql params k.

(** The store: it answers a statement with rows, or fails with a
    message, and moves to a new state. *)
Definition executor (S : Type) : Type :=
  string → list value → S → (string + list (gmap string value)) * S.

(** Running a program against a store.  A failure of the executor is
    thrown on: no method catches. *)
Fixpoint run {S A} (db : executor S) (p : prog A) (s : S) : (error + A) * S :=
  match p with
  | Ret a => (inr a, s)
  | Throw e => (inl e, s)
  | Query sql params k =>
      match db sql params s with
      | (inl msg, s') => (inl (StoreError msg), s')
      | (inr rows, s') => run db (k rows) s'
      end
  end.

(** The statements a run sends, in order, each with its parameters. *)
Fixpoint issued {S A} (db : executor S) (p : prog A) (s : S)
    : list (string * list value) :=
  match p with
  | Ret _ | Throw _ => []
  | Query sql params k =>
      (sql, params) ::
      match db sql params s with
      | (inl _, _) => []
      | (inr rows, s') => issued db (k rows) s'
      end
  end.

(** What a run ends with, and what the store answers to a statement. *)
Definition outcome {S A} (db : executor S) (p : prog A) (s : S) : error + A :=
  (run db p s).1.

Definition answer {S} (db : executor S) (sql : string) (params : list value)
    (s : S) : string + list (gmap string value) :=
  (db sql params s).1.

End Db.
Import Db.

Notation "'await' x ← 'db.query' ( sql , params ) ; k" :=
  (Query sql params (λ x, k))
  (at level 10, x name, sql at level 200, params at level 200,
   k at level 200, only parsing).

(** ** models/company.js, first revision (lines 1-198) *)

Module Company.

Record where_clause : Type :=
  { SQL : string; parameters : list value }.

Definition duplicateCheckSql : string :=
  "SELECT handle" +:+ nl +:+
  "           FROM companies" +:+ nl +:+
  "           WHERE handle = $1".

Definition insertSql : string :=
  "INSERT INTO companies(" +:+ nl +:+
  "          handle," +:+ nl +:+
  "          name," +:+ nl +:+
  "          description," +:+ nl +:+
  "          num_employees," +:+ nl +:+
  "          logo_url)" +:+ nl +:+
  "           VALUES" +:+ nl +:+
  "             ($1, $2, $3, $4, $5)" +:+ nl +:+
  "           RETURNING handle, name, description, num_employees AS "
    +:+ dq +:+ "numEmployees" +:+ dq +:+ ", logo_url AS "
    +:+ dq +:+ "logoUrl" +:+ dq.

(** [create({ handle, name, description, numEmployees, logoUrl })] *)
Definition create (data : gmap string value) : prog jsval :=
  let handle := read data "handle" in
  let name := read data "name" in
  let description := read data "description" in
  let numEmployees := read data "numEmployees" in
  let logoUrl := read data "logoUrl" in
  await duplicateCheck ← db.query (duplicateCheckSql, [handle]);
  if truthy (first duplicateCheck)
  then Throw (BadRequestError ("Duplicate company: " +:+ ToString handle))
  else
    await result ← db.query
      (insertSql, [handle; name; description; numEmployees; logoUrl]);
    let company := first result in
    Ret company.

(** [_whereClauseBuilder(filters)]: the placeholder of a condition is
    the length of [values] after its value was pushed. *)
Definition _whereClauseBuilder (filters : gmap string value) : where_clause :=
  let whereClauses : list string := [] in
  let completedWhereClause := EmptyString in
  let values : list value := [] in
  let '(values, whereClauses) :=
    if defined (read filters "minEmployees") then
      let values := values ++ [read filters "minEmployees"] in
      (values, whereClauses ++ ["num_employees >= $" +:+ pretty (length values)])
    else (values, whereClauses) in
  let '(values, whereClauses) :=
    if defined (read filters "maxEmployees") then
      let values := values ++ [read filters "maxEmployees"] in
      (values, whereClauses ++ ["num_employees <= $" +:+ pretty (length values)])
    else (values, whereClauses) in
  let '(values, whereClauses) :=
    if defined (read filters "name") then
      let values :=
        values ++ [VStr ("_" +:+ ToString (read filters "name") +:+ "%")] in
      (values, whereClauses ++ ["name ILIKE $" +:+ pretty (length values)])
    else (values, whereClauses) in
  let completedWhereClause :=
    if (0 <? length whereClauses)%nat
    then "WHERE " +:+ join " AND " whereClauses
    else completedWhereClause in
  {| SQL := completedWhereClause; parameters := values |}.

Definition findAllSql (SQL : string) : string :=
  "SELECT handle," +:+ nl +:+
  "              name," +:+ nl +:+
  "              description," +:+ nl +:+
  "              num_employees AS " +:+ dq +:+ "numEmployees" +:+ dq +:+ "," +:+ nl +:+
  "              logo_url AS " +:+ dq +:+ "logoUrl" +:+ dq +:+ nl +:+
  "          FROM companies" +:+ nl +:+
  "          " +:+ SQL +:+ " " +:+ nl +:+
  "          ORDER BY name".

Definition minMaxMessage : string :=
  "Min Employees must be less than Max Employees".

(** [findAll(searchFilters = {})]; [None] is a call without argument. *)
Definition findAll `{JsEnv} (arg : option (gmap string value)) : prog jsval :=
  let searchFilters := default ∅ arg in
  let name := read searchFilters "name" in
  let minEmployees := read searchFilters "minEmployees" in
  let maxEmployees := read searchFilters "maxEmployees" in
  if gt minEmployees maxEmployees then Throw (BadRequestError minMaxMessage)
  else
    let r := _whereClauseBuilder
               (<["name" := name]>
                  (<["minEmployees" := minEmployees]>
                     (<["maxEmployees" := maxEmployees]> ∅))) in
    await companiesRes ← db.query (findAllSql (SQL r), parameters r);
    Ret (Arr companiesRes).

Definition getSql : string :=
  "SELECT handle," +:+ nl +:+
  "                name," +:+ nl +:+
  "                description," +:+ nl +:+
  "                num_employees AS " +:+ dq +:+ "numEmployees" +:+ dq +:+ "," +:+ nl +:+
  "                logo_url AS " +:+ dq +:+ "logoUrl" +:+ dq +:+ nl +:+
  "           FROM companies" +:+ nl +:+
  "           WHERE handle = $1".

(** [get(handle)] *)
Definition get (handle : value) : prog jsval :=
  await companyRes ← db.query (getSql, [handle]);
  let company := first companyRes in
  if negb (truthy company)
  then Throw (NotFoundError ("No company: " +:+ ToString handle))
  else Ret company.

(** The translation table [update] hands to the builder. *)
Definition jsToSql : gmap string value :=
  <["numEmployees" := VStr "num_employees"]>
    (<["logoUrl" := VStr "logo_url"]> ∅).

Definition updateSql (setCols handleVarIdx : string) : string :=
  nl +:+
  "      UPDATE companies" +:+ nl +:+
  "      SET " +:+ setCols +:+ nl +:+
  "        WHERE handle = " +:+ handleVarIdx +:+ nl +:+
  "        RETURNING handle, name, description, num_employees AS "
    +:+ dq +:+ "numEmployees" +:+ dq +:+ ", logo_url AS "
    +:+ dq +:+ "logoUrl" +:+ dq.

(** [update(handle, data)]; the builder's exception leaves the method
    before any statement is sent. *)
Definition update (handle : value) (data : list (string * value)) : prog jsval :=
  match sqlForPartialUpdate data jsToSql with
  | inl e => Throw e
  | inr r =>
      let handleVarIdx := "$" +:+ pretty (length (values r) + 1)%nat in
      let querySql := updateSql (setCols r) handleVarIdx in
      await result ← db.query (querySql, values r ++ [handle]);
      let company := first result in
      if negb (truthy company)
      then Throw (NotFoundError ("No company: " +:+ ToString handle))
      else Ret company
  end.

Definition removeSql : string :=
  "DELETE" +:+ nl +:+
  "           FROM companies" +:+ nl +:+
  "           WHERE handle = $1" +:+ nl +:+
  "           RETURNING handle".

(** [remove(handle)]: the method has no [return]. *)
Definition remove (handle : value) : prog jsval :=
  await result ← db.query (removeSql, [handle]);
  let company := first result in
  if negb (truthy company)
  then Throw (NotFoundError ("No company: " +:+ ToString handle))
  else Ret (Prim VUndefined).

End Company.

(** ** models/company.js, second revision (lines 200-409) *)

Module CompanyAlt.

Import Company.

(** The four methods below read the same in both revisions. *)
Definition create := Company.create.
Definition get := Company.get.
Definition update := Company.update.
Definition remove := Company.remove.

(** [whereClauseBuilder(filters)]: a counter, incremented before each
    use, numbers the placeholders; the clause carries no keyword. *)
Definition whereClauseBuilder (filters : gmap string value) : where_clause :=
  let whereClauses : list string := [] in
  let counter := 0%nat in
  let values : list value := [] in
  let '(whereClauses, counter, values) :=
    if defined (read filters "minEmployees") then
      let counter := (counter + 1)%nat in
      (whereClauses ++ ["num_employees >= $" +:+ pretty counter], counter,
       values ++ [read filters "minEmployees"])
    else (whereClauses, counter, values) in
  let '(whereClauses, counter, values) :=
    if defined (read filters "maxEmployees") then
      let counter := (counter + 1)%nat in
      (whereClauses ++ ["num_employees <= $" +:+ pretty counter], counter,
       values ++ [read filters "maxEmployees"])
    else (whereClauses, counter, values) in
  let '(whereClauses, counter, values) :=
    if defined (read filters "name") then
      let counter := (counter + 1)%nat in
      (whereClauses ++ ["name ILIKE $" +:+ pretty counter], counter,
       values ++ [VStr ("_" +:+ ToString (read filters "name") +:+ "%")])
    else (whereClauses, counter, values) in
  {| SQL := join " AND " whereClauses; parameters := values |}.

Definition findAllUnfilteredSql : string :=
  "SELECT handle," +:+ nl +:+
  "                name," +:+ nl +:+
  "                description," +:+ nl +:+
  "                num_employees AS " +:+ dq +:+ "numEmployees" +:+ dq +:+ "," +:+ nl +:+
  "                logo_url AS " +:+ dq +:+ "logoUrl" +:+ dq +:+ nl +:+
  "           FROM companies" +:+ nl +:+
  "           ORDER BY name".

Definition findAllSql (SQL : string) : string :=
  "SELECT handle," +:+ nl +:+
  "                name," +:+ nl +:+
  "                description," +:+ nl +:+
  "                num_employees AS " +:+ dq +:+ "numEmployees" +:+ dq +:+ "," +:+ nl +:+
  "                logo_url AS " +:+ dq +:+ "logoUrl" +:+ dq +:+ nl +:+
  "           FROM companies" +:+ nl +:+
  "           WHERE " +:+ SQL +:+ nl +:+
  "           ORDER BY name".

(** [findAll(searchFilters = {})]; the unfiltered statement is sent
    without a parameter array. *)
Definition findAll `{JsEnv} (arg : option (gmap string value)) : prog jsval :=
  let searchFilters := default ∅ arg in
  let name := read searchFilters "name" in
  let minEmployees := read searchFilters "minEmployees" in
  let maxEmployees := read searchFilters "maxEmployees" in
  if gt minEmployees maxEmployees then Throw (BadRequestError minMaxMessage)
  else if (size searchFilters =? 0)%nat then
    await companiesRes ← db.query (findAllUnfilteredSql, []);
    Ret (Arr companiesRes)
  else
    let r := whereClauseBuilder
               (<["name" := name]>
                  (<["minEmployees" := minEmployees]>
                     (<["maxEmployees" := maxEmployees]> ∅))) in
    await companiesRes ← db.query (findAllSql (SQL r), parameters r);
    Ret (Arr companiesRes).

End CompanyAlt.

(** ** models/job.js *)

Module Job.

Definition insertSql : string :=
  "INSERT INTO jobs(" +:+ nl +:+
  "            title, " +:+ nl +:+
  "            salary, " +:+ nl +:+
  "            equity, " +:+ nl +:+
  "            company_handle)" +:+ nl +:+
  "           VALUES" +:+ nl +:+
  "             ($1, $2, $3, $4)" +:+ nl +:+
  "           RETURNING id, title, salary, equity, company_handle".

(** [create({ title, salary=null, equity=null, company_handle })]: a
    default stands in for a property that reads [undefined]. *)
Definition create (data : gmap string value) : prog jsval :=
  let title := read data "title" in
  let salary :=
    if defined (read data "salary") then read data "salary" else VNull in
  let equity :=
    if defined (read data "equity") then read data "equity" else VNull in
  let company_handle := read data "company_handle" in
  await result ← db.query
    (insertSql, [title; salary; equity; company_handle]);
  let job := first result in
  Ret job.

End Job.

(** ** A scripted executor

    A store for concrete runs: it answers the statements it receives with
    the answers queued in its state, in order, and fails once the queue is
    empty. *)

Module Scripted.

Definition answers : Type := list (string + list (gmap string value)).

Definition db : executor answers :=
  λ _ _ queue,
    match queue with
    | [] => (inl "no answer left", [])
    | a :: rest => (a, rest)
    end.

(** An environment in which no string is numeric. *)
Definition env : JsEnv := {| StringToNumber := λ _, None |}.

End Scripted.

(** ** The builders as the specification words them

    These follow the specification's sentences, not the sources; the
    theorems compare the sources with them. *)

Module Worded.

(** §4.1: the column of a key is its entry in the translation table, and
    the key itself when the table has no usable entry for it: none, or a
    falsy one (the empty string).  A key without entry that names a member
    of [Object.prototype] (toString, constructor, ...) finds that member in
    the table object, and its column is the text of the member. *)
Definition column (jsToSql : gmap string value) (key : string) : string :=
  match jsToSql !! key with
  | Some c => if ToBoolean c then ToString c else key
  | None =>
      match inherited key with
      | Some text => text
      | None => key
      end
  end.


(** §4.1: a column is rendered quoted, with the [i]-th placeholder
    (counted from 1; [idx] counts from 0). *)
Definition fragment (col : string) (idx : nat) : string :=
  dq +:+ col +:+ dq +:+ "=$" +:+ pretty (S idx).

(** §4.2: the three candidate conditions in their fixed order, each with
    the value that decides its presence and the value it binds. *)
Definition candidates (filters : gmap string value)
    : list (string * value * value) :=
  let minEmployees := read filters "minEmployees" in
  let maxEmployees := read filters "maxEmployees" in
  let name := read filters "name" in
  [ ("num_employees >= $", minEmployees, minEmployees);
    ("num_employees <= $", maxEmployees, maxEmployees);
    ("name ILIKE $", name, VStr ("_" +:+ ToString name +:+ "%")) ].

(** The conditions actually appended: those whose filter is present. *)
Definition appended (filters : gmap string value)
    : list (string * value * value) :=
  List.filter (λ c, defined c.1.2) (candidates filters).

(** The appended conditions numbered consecutively from 1. *)
Definition numbered (filters : gmap string value) : list string :=
  imap (λ idx c, c.1.1 +:+ pretty (S idx)) (appended filters).

(** At least one condition applies. *)
Definition applies (filters : gmap string value) : bool :=
  defined (read filters "minEmployees")
  || defined (read filters "maxEmployees")
  || defined (read filters "name").

End Worded.

(** ** Inputs of the test suites *)

Module Fixtures.

(** [{minEmployees:1, maxEmployees:2, name:"2"}] (company.test.js). *)
Definition allThree : gmap string value :=
  <["minEmployees" := VNum 1]>
    (<["maxEmployees" := VNum 2]> (<["name" := VStr "2"]> ∅)).

(** [{minEmployees: 11, maxEmployees: 2}] (company.test.js). *)
Definition minAboveMax : gmap string value :=
  <["minEmployees" := VNum 11]> (<["maxEmployees" := VNum 2]> ∅).

(** [newCompany] (company.test.js). *)
Definition newCompany : gmap string value :=
  <["handle" := VStr "new"]>
    (<["name" := VStr "New"]>
       (<["description" := VStr "New Description"]>
          (<["numEmployees" := VNum 1]>
             (<["logoUrl" := VStr "http://new.img"]> ∅)))).

(** The row a statement ending in [RETURNING handle], or the duplicate
    check, yields for the company [h]. *)
Definition handleRow (h : string) : gmap string value :=
  {["handle" := VStr h]}.

End Fixtures.

Module Inputs.

(** [{minEmployees: 2, maxEmployees: 2}] *)
Definition equalBounds : gmap string value :=
  <["minEmployees" := VNum 2]> (<["maxEmployees" := VNum 2]> ∅).

(** [{minEmployees: 2}] (company.test.js). *)
Definition minOnly : gmap string value := <["minEmployees" := VNum 2]> ∅.

(** [{page: 1}]: a key that is no filter. *)
Definition noFilter : gmap string value := <["page" := VNum 1]> ∅.

(** Three filters present, with other values than [allThree]. *)
Definition otherThree : gmap string value :=
  <["minEmployees" := VNum 7]>
    (<["maxEmployees" := VNull]> (<["name" := VStr "x%' OR 1=1 --"]> ∅)).

End Inputs.

(** ** Properties *)

Section Builders.

Import Company CompanyAlt Worded Fixtures.

Lemma pretty_S_plus (idx : nat) : pretty (idx + 1)%nat = pretty (S idx).
Proof. by rewrite Nat.add_1_r. Qed.

Lemma or_column (jsToSql : gmap string value) (key : string) :
  ToStringReading (orReading (readComputed jsToSql key) (VStr key))
  = column jsToSql key.
Proof.
  unfold readComputed, column.
  destruct (jsToSql !! key) as [c|]; simpl.
  - unfold or. by destruct (ToBoolean c).
  - by destruct (inherited key).
Qed.

Lemma sqlForPartialUpdate_nonempty
    (data : list (string * value)) (jsToSql : gmap string value) :
  data ≠ [] →
  sqlForPartialUpdate data jsToSql =
    inr {| setCols := join ", " (imap (λ idx key, fragment (column jsToSql key) idx) data.*1);
           values := data.*2 |}.
Proof.
  intros Hne. unfold sqlForPartialUpdate.
  destruct data as [|kv data]; [done|]. simpl length. simpl Nat.eqb.
  do 3 f_equal. apply imap_ext. intros idx key _.
  unfold fragment. by rewrite or_column, pretty_S_plus.
Qed.

Lemma sqlForPartialUpdate_empty (jsToSql : gmap string value) :
  sqlForPartialUpdate [] jsToSql = inl (BadRequestError "No data").
Proof. reflexivity. Qed.




(** C3.  [sqlForPartialUpdate] throws the bad-request error "No data" for
    the empty update mapping, whatever the translation table, and throws
    nothing for any other mapping. *)
Theorem sqlForPartialUpdate_no_data
    (data : list (string * value)) (jsToSql : gmap string value) :
  (sqlForPartialUpdate data jsToSql = inl (BadRequestError "No data") ↔ data = [])
  ∧ (∀ e : error, sqlForPartialUpdate data jsToSql = inl e → data = []).
Proof.
  destruct data as [|kv data].
  - by rewrite sqlForPartialUpdate_empty.
  - rewrite sqlForPartialUpdate_nonempty by done. split; [split|]; done.
Qed.

(** Both where-clause builders, compared with the worded one. *)
Lemma whereClauseBuilder_worded (filters : gmap string value) :
  whereClauseBuilder filters
  = {| SQL := join " AND " (numbered filters);
       parameters := (appended filters).*2 |}.
Proof.
  unfold whereClauseBuilder, numbered, appended, candidates.
  destruct (read filters "minEmployees"), (read filters "maxEmployees"),
    (read filters "name"); reflexivity.
Qed.

Lemma _whereClauseBuilder_worded (filters : gmap string value) :
  _whereClauseBuilder filters
  = {| SQL := if applies filters
              then "WHERE " +:+ join " AND " (numbered filters)
              else EmptyString;
       parameters := (appended filters).*2 |}.
Proof.
  unfold _whereClauseBuilder, applies, numbered, appended, candidates.
  destruct (read filters "minEmployees"), (read filters "maxEmployees"),
    (read filters "name"); reflexivity.
Qed.

Lemma length_app_string (s1 s2 : string) :
  String.length (s1 +:+ s2) = (String.length s1 + String.length s2)%nat.
Proof. induction s1 as [|a s1 IH]; simpl; [done|]. by rewrite IH. Qed.

Lemma pattern_not_raw (s : string) : "_" +:+ s +:+ "%" ≠ s.
Proof.
  intros H. apply (f_equal String.length) in H.
  rewrite !length_app_string in H. simpl in H. lia.
Qed.

(** C2 (as amended).  With all three filters present the conditions come
    in the order minEmployees, maxEmployees, name: [whereClauseBuilder]
    returns exactly the clause below and [_whereClauseBuilder] the same
    clause after the keyword; both return the values in that order. *)
Theorem whereClauseBuilder_fixed_order (filters : gmap string value) :
  read filters "minEmployees" ≠ VUndefined →
  read filters "maxEmployees" ≠ VUndefined →
  read filters "name" ≠ VUndefined →
  whereClauseBuilder filters
    = {| SQL := "num_employees >= $1 AND num_employees <= $2 AND name ILIKE $3";
         parameters := [ read filters "minEmployees";
                         read filters "maxEmployees";
                         VStr ("_" +:+ ToString (read filters "name") +:+ "%") ] |}
  ∧ _whereClauseBuilder filters
    = {| SQL := "WHERE num_employees >= $1 AND num_employees <= $2 AND name ILIKE $3";
         parameters := [ read filters "minEmployees";
                         read filters "maxEmployees";
                         VStr ("_" +:+ ToString (read filters "name") +:+ "%") ] |}.
Proof.
  intros Hmin Hmax Hname.
  unfold whereClauseBuilder, _whereClauseBuilder.
  destruct (read filters "minEmployees"), (read filters "maxEmployees"),
    (read filters "name"); try done; split; reflexivity.
Qed.

Lemma whereClauseBuilder_fixed_order_witness :
  whereClauseBuilder allThree
    = {| SQL := "num_employees >= $1 AND num_employees <= $2 AND name ILIKE $3";
         parameters := [VNum 1; VNum 2; VStr "_2%"] |}
  ∧ _whereClauseBuilder allThree
    = {| SQL := "WHERE num_employees >= $1 AND num_employees <= $2 AND name ILIKE $3";
         parameters := [VNum 1; VNum 2; VStr "_2%"] |}.
Proof.
  apply (whereClauseBuilder_fixed_order allThree); by vm_compute.
Defined.

(** C2, the counterexample.  On the example [_whereClauseBuilder] does not
    return exactly the claimed clause: its clause opens with the
    keyword. *)
Lemma _whereClauseBuilder_keyword :
  SQL (_whereClauseBuilder allThree)
    = "WHERE num_employees >= $1 AND num_employees <= $2 AND name ILIKE $3"
  ∧ SQL (_whereClauseBuilder allThree)
    ≠ "num_employees >= $1 AND num_employees <= $2 AND name ILIKE $3".
Proof. split; by vm_compute. Qed.

(** C4.  When the name filter is present, each builder's clause ends with
    the condition [name ILIKE $k], where [k] is the number of values, and
    the [k]-th value is "_" + name + "%": neither "%" + name + "%" nor
    the name as given. *)
Theorem whereClauseBuilder_name_pattern (filters : gmap string value) :
  read filters "name" ≠ VUndefined →
  (∀ r : where_clause,
     r = whereClauseBuilder filters ∨ r = _whereClauseBuilder filters →
     ∃ (k : nat) (before : string),
       SQL r = before +:+ "name ILIKE $" +:+ pretty k
       ∧ k = length (parameters r)
       ∧ (1 ≤ k)%nat
       ∧ parameters r !! (k - 1)%nat
         = Some (VStr ("_" +:+ ToString (read filters "name") +:+ "%")))
  ∧ VStr ("_" +:+ ToString (read filters "name") +:+ "%")
    ≠ VStr ("%" +:+ ToString (read filters "name") +:+ "%")
  ∧ VStr ("_" +:+ ToString (read filters "name") +:+ "%")
    ≠ read filters "name".
Proof.
  intros Hname. split; [|split].
  - assert (Hdef : defined (read filters "name") = true)
      by (by destruct (read filters "name")).
    intros r [-> | ->];
      unfold whereClauseBuilder, _whereClauseBuilder; rewrite Hdef;
      destruct (defined (read filters "minEmployees")),
        (defined (read filters "maxEmployees"));
      solve
        [ exists 1%nat, EmptyString; repeat split; (reflexivity || lia)
        | exists 1%nat, "WHERE "; repeat split; (reflexivity || lia)
        | exists 2%nat, "num_employees >= $1 AND "; repeat split; (reflexivity || lia)
        | exists 2%nat, "num_employees <= $1 AND "; repeat split; (reflexivity || lia)
        | exists 2%nat, "WHERE num_employees >= $1 AND "; repeat split; (reflexivity || lia)
        | exists 2%nat, "WHERE num_employees <= $1 AND "; repeat split; (reflexivity || lia)
        | exists 3%nat, "num_employees >= $1 AND num_employees <= $2 AND ";
            repeat split; (reflexivity || lia)
        | exists 3%nat, "WHERE num_employees >= $1 AND num_employees <= $2 AND ";
            repeat split; (reflexivity || lia) ].
  - intros H. injection H as H. discriminate H.
  - destruct (read filters "name") as [| | | |s]; try discriminate.
    intros H. injection H as H. by apply pattern_not_raw in H.
Qed.

Lemma whereClauseBuilder_name_pattern_witness :
  read allThree "name" ≠ VUndefined
  ∧ ∃ (k : nat) (before : string),
      SQL (whereClauseBuilder allThree) = before +:+ "name ILIKE $" +:+ pretty k
      ∧ k = length (parameters (whereClauseBuilder allThree))
      ∧ (1 ≤ k)%nat
      ∧ parameters (whereClauseBuilder allThree) !! (k - 1)%nat = Some (VStr "_2%").
Proof.
  assert (Hname : read allThree "name" ≠ VUndefined) by (by vm_compute).
  split; [exact Hname|].
  exact (proj1 (whereClauseBuilder_name_pattern allThree Hname)
               (whereClauseBuilder allThree) (or_introl eq_refl)).
Defined.

Lemma applies_false (filters : gmap string value) :
  applies filters = false → appended filters = [].
Proof.
  unfold applies, appended, candidates. simpl.
  destruct (defined (read filters "minEmployees")),
    (defined (read filters "maxEmployees")),
    (defined (read filters "name")); done.
Qed.

(** C5.  [whereClauseBuilder] keeps the conditions whose filter is
    present and numbers them consecutively from [$1]: its clause joins
    the appended conditions, the [i]-th of them (from 0) carrying
    placeholder [$(i+1)], and its values are theirs, one for one.  So
    [{maxEmployees:2}] alone gives [num_employees <= $1] with [[2]], and
    filters of which none applies give the empty clause and no value. *)
Theorem whereClauseBuilder_numbering (filters : gmap string value) :
  whereClauseBuilder filters
    = {| SQL := join " AND " (numbered filters);
         parameters := (appended filters).*2 |}
  ∧ length (numbered filters) = length (parameters (whereClauseBuilder filters))
  ∧ (∀ (i : nat) (c : string * value * value),
       appended filters !! i = Some c →
       defined c.1.2 = true
       ∧ numbered filters !! i = Some (c.1.1 +:+ pretty (S i))
       ∧ parameters (whereClauseBuilder filters) !! i = Some c.2)
  ∧ whereClauseBuilder {["maxEmployees" := VNum 2]}
    = {| SQL := "num_employees <= $1"; parameters := [VNum 2] |}
  ∧ (applies filters = false →
     whereClauseBuilder filters = {| SQL := EmptyString; parameters := [] |})
  ∧ whereClauseBuilder ∅ = {| SQL := EmptyString; parameters := [] |}.
Proof.
  split; [apply whereClauseBuilder_worded|].
  rewrite whereClauseBuilder_worded. simpl parameters.
  split; [unfold numbered; by rewrite length_imap, length_fmap|].
  split.
  { intros i c Hi. split; [|split].
    - apply list_elem_of_lookup_2, list_elem_of_In in Hi.
      unfold appended in Hi. by apply filter_In in Hi as [_ Hc].
    - unfold numbered. by rewrite list_lookup_imap, Hi.
    - by rewrite list_lookup_fmap, Hi. }
  split; [by vm_compute|].
  split; [|by vm_compute].
  intros Hnone. unfold numbered. by rewrite (applies_false _ Hnone).
Qed.

(** C10.  The two builders return the same values; when a condition
    applies, the clause of [_whereClauseBuilder] is the keyword followed
    by the clause of [whereClauseBuilder], and when none does both
    clauses are empty. *)
Theorem whereClauseBuilders_agree (filters : gmap string value) :
  parameters (_whereClauseBuilder filters)
    = parameters (whereClauseBuilder filters)
  ∧ (applies filters = true →
     SQL (_whereClauseBuilder filters)
       = "WHERE " +:+ SQL (whereClauseBuilder filters))
  ∧ (applies filters = false →
     SQL (_whereClauseBuilder filters) = EmptyString
     ∧ SQL (whereClauseBuilder filters) = EmptyString).
Proof.
  rewrite _whereClauseBuilder_worded, whereClauseBuilder_worded. simpl.
  split; [done|]. split.
  - by intros ->.
  - intros Hnone. rewrite Hnone. unfold numbered.
    by rewrite (applies_false _ Hnone).
Qed.

End Builders.

Section Models.

Import Company Worded Fixtures.

Lemma gt_numbers `{JsEnv} (lo hi : Z) :
  (hi < lo)%Z → gt (VNum lo) (VNum hi) = true.
Proof. intros Hlt. simpl. by apply Z.ltb_lt. Qed.

(** A method that sends one statement and throws [e] on an empty answer
    only: it ends with [e] exactly when the store answers with no row
    (and not when the store itself fails, [e] not being a store error). *)
Lemma single_statement {S A} (db : executor S) (s : S)
    (sql : string) (params : list value)
    (k : list (gmap string value) → prog A) (msg : string) :
  k [] = Throw (NotFoundError msg) →
  (∀ row rest, ∃ a, k (row :: rest) = Ret a) →
  issued db (Query sql params k) s = [(sql, params)]
  ∧ (outcome db (Query sql params k) s = inl (NotFoundError msg)
     ↔ answer db sql params s = inr []).
Proof.
  intros Hnone Hsome. unfold outcome, answer. simpl.
  destruct (db sql params s) as [[m | [|row rest]] s']; simpl.
  - split; [done|]. split; discriminate.
  - rewrite Hnone. simpl. done.
  - destruct (Hsome row rest) as [a ->]. simpl. split; [done|].
    split; discriminate.
Qed.

(** C6.  When both bounds are numbers and minEmployees exceeds
    maxEmployees, [findAll] (either revision) is the program that throws
    the bad-request error naming the relation and does nothing else: run
    against any store, from any state, it sends no statement and leaves
    the state as it was. *)
Theorem findAll_min_above_max `{JsEnv}
    (filters : gmap string value) (lo hi : Z) :
  read filters "minEmployees" = VNum lo →
  read filters "maxEmployees" = VNum hi →
  (hi < lo)%Z →
  Company.findAll (Some filters)
    = Throw (BadRequestError "Min Employees must be less than Max Employees")
  ∧ CompanyAlt.findAll (Some filters)
    = Throw (BadRequestError "Min Employees must be less than Max Employees")
  ∧ ∀ (S : Type) (db : executor S) (s : S),
      run db (Company.findAll (Some filters)) s
        = (inl (BadRequestError "Min Employees must be less than Max Employees"), s)
      ∧ issued db (Company.findAll (Some filters)) s = []
      ∧ run db (CompanyAlt.findAll (Some filters)) s
        = (inl (BadRequestError "Min Employees must be less than Max Employees"), s)
      ∧ issued db (CompanyAlt.findAll (Some filters)) s = [].
Proof.
  intros Hmin Hmax Hlt.
  assert (H1 : Company.findAll (Some filters) = Throw (BadRequestError minMaxMessage)).
  { unfold Company.findAll. simpl default.
    by rewrite Hmin, Hmax, (gt_numbers _ _ Hlt). }
  assert (H2 : CompanyAlt.findAll (Some filters) = Throw (BadRequestError minMaxMessage)).
  { unfold CompanyAlt.findAll. simpl default.
    by rewrite Hmin, Hmax, (gt_numbers _ _ Hlt). }
  split; [exact H1|]. split; [exact H2|].
  intros S db s. by rewrite H1, H2.
Qed.

(** The test's input, [{minEmployees: 11, maxEmployees: 2}]. *)
Lemma findAll_min_above_max_witness :
  (2 < 11)%Z
  ∧ @Company.findAll Scripted.env (Some minAboveMax)
    = Throw (BadRequestError "Min Employees must be less than Max Employees")
  ∧ @CompanyAlt.findAll Scripted.env (Some minAboveMax)
    = Throw (BadRequestError "Min Employees must be less than Max Employees").
Proof.
  assert (Hlt : (2 < 11)%Z) by lia.
  split; [exact Hlt|].
  destruct (@findAll_min_above_max Scripted.env minAboveMax 11 2
              eq_refl eq_refl Hlt) as (H1 & H2 & _).
  split; [exact H1 | exact H2].
Defined.

(** C7.  For a non-empty payload of [n] fields, [update] takes the SET
    clause and the values from [sqlForPartialUpdate] with the table
    [{numEmployees: "num_employees", logoUrl: "logo_url"}], sends one
    statement whose last placeholder is [WHERE handle = $(n+1)] with the
    parameters [values ++ [handle]], throws the not-found error exactly
    when the store answers with no row, and returns the first row
    otherwise. *)
Theorem update_statement (handle : value) (data : list (string * value)) :
  data ≠ [] →
  ∃ (r : update_clause) (querySql : string)
    (k : list (gmap string value) → prog jsval),
    sqlForPartialUpdate data
      (<["numEmployees" := VStr "num_employees"]>
         (<["logoUrl" := VStr "logo_url"]> ∅)) = inr r
    ∧ length (values r) = length data
    ∧ querySql
      = nl +:+
        "      UPDATE companies" +:+ nl +:+
        "      SET " +:+ setCols r +:+ nl +:+
        "        WHERE handle = $" +:+ pretty (length data + 1)%nat +:+ nl +:+
        "        RETURNING handle, name, description, num_employees AS "
          +:+ dq +:+ "numEmployees" +:+ dq +:+ ", logo_url AS "
          +:+ dq +:+ "logoUrl" +:+ dq
    ∧ Company.update handle data = Query querySql (values r ++ [handle]) k
    ∧ k [] = Throw (NotFoundError ("No company: " +:+ ToString handle))
    ∧ (∀ (company : gmap string value) (rest : list (gmap string value)),
         k (company :: rest) = Ret (Obj company))
    ∧ (∀ (S : Type) (db : executor S) (s : S),
         issued db (Company.update handle data) s
           = [(querySql, values r ++ [handle])]
         ∧ (outcome db (Company.update handle data) s
              = inl (NotFoundError ("No company: " +:+ ToString handle))
            ↔ answer db querySql (values r ++ [handle]) s = inr []))
    ∧ CompanyAlt.update handle data = Company.update handle data.
Proof.
  intros Hne.
  pose proof (sqlForPartialUpdate_nonempty data jsToSql Hne) as Hr.
  eexists _, _, _. split; [exact Hr|]. simpl values. simpl setCols.
  split; [by rewrite length_fmap|].
  split; [reflexivity|].
  match goal with |- ?Q ∧ _ => assert (Hq : Q) end.
  { unfold Company.update. rewrite Hr. simpl values. simpl setCols.
    rewrite length_fmap. reflexivity. }
  split; [exact Hq|].
  split; [reflexivity|]. split; [intros company rest; reflexivity|].
  split; [|reflexivity].
  intros S db s. rewrite Hq. apply single_statement; [done|].
  intros row rest. by eexists.
Qed.

(** [Company.update("c1", {name: "New"})]: one field, so the handle is
    bound to [$2]. *)
Lemma update_statement_witness :
  [("name", VStr "New")] ≠ []
  ∧ ∃ k : list (gmap string value) → prog jsval,
      Company.update (VStr "c1") [("name", VStr "New")]
      = Query
          (nl +:+
           "      UPDATE companies" +:+ nl +:+
           "      SET " +:+ dq +:+ "name" +:+ dq +:+ "=$1" +:+ nl +:+
           "        WHERE handle = $2" +:+ nl +:+
           "        RETURNING handle, name, description, num_employees AS "
             +:+ dq +:+ "numEmployees" +:+ dq +:+ ", logo_url AS "
             +:+ dq +:+ "logoUrl" +:+ dq)
          [VStr "New"; VStr "c1"] k
      ∧ k [] = Throw (NotFoundError "No company: c1").
Proof.
  assert (Hne : [("name", VStr "New")] ≠ @nil (string * value)) by discriminate.
  split; [exact Hne|].
  destruct (update_statement (VStr "c1") [("name", VStr "New")] Hne)
    as (r & querySql & k & Hr & _ & -> & Hq & Hnone & _).
  exists k. split; [|exact Hnone].
  rewrite Hq. injection Hr as <-. reflexivity.
Defined.

(** C8 (as amended).  [create] first sends the duplicate check for the
    handle.  When the check answers with a row it throws the bad-request
    error "Duplicate company: <handle>", and a run ends with that error
    exactly then; when it answers with none it sends the INSERT with the
    five fields in order, whose RETURNING clause names handle, name,
    description, numEmployees and logoUrl, and returns the first row of
    that answer. *)
Theorem create_statement (data : gmap string value) :
  duplicateCheckSql
    = "SELECT handle" +:+ nl +:+
      "           FROM companies" +:+ nl +:+
      "           WHERE handle = $1"
  ∧ insertSql
    = "INSERT INTO companies(" +:+ nl +:+
      "          handle," +:+ nl +:+
      "          name," +:+ nl +:+
      "          description," +:+ nl +:+
      "          num_employees," +:+ nl +:+
      "          logo_url)" +:+ nl +:+
      "           VALUES" +:+ nl +:+
      "             ($1, $2, $3, $4, $5)" +:+ nl +:+
      "           RETURNING handle, name, description, num_employees AS "
        +:+ dq +:+ "numEmployees" +:+ dq +:+ ", logo_url AS "
        +:+ dq +:+ "logoUrl" +:+ dq
  ∧ (∃ check insert : list (gmap string value) → prog jsval,
       Company.create data
         = Query duplicateCheckSql [read data "handle"] check
       ∧ (∀ (row : gmap string value) (rest : list (gmap string value)),
            check (row :: rest)
            = Throw (BadRequestError
                       ("Duplicate company: " +:+ ToString (read data "handle"))))
       ∧ check []
         = Query insertSql
             [ read data "handle"; read data "name"; read data "description";
               read data "numEmployees"; read data "logoUrl" ]
             insert
       ∧ ∀ result : list (gmap string value), insert result = Ret (first result))
  ∧ (∀ (S : Type) (db : executor S) (s : S),
       (outcome db (Company.create data) s
          = inl (BadRequestError
                   ("Duplicate company: " +:+ ToString (read data "handle")))
        ↔ ∃ (row : gmap string value) (rest : list (gmap string value)),
            answer db duplicateCheckSql [read data "handle"] s
            = inr (row :: rest))
       ∧ ∀ (s1 s2 : S) (result : list (gmap string value)),
           db duplicateCheckSql [read data "handle"] s = (inr [], s1) →
           db insertSql
              [ read data "handle"; read data "name"; read data "description";
                read data "numEmployees"; read data "logoUrl" ] s1
             = (inr result, s2) →
           run db (Company.create data) s = (inr (first result), s2)
           ∧ issued db (Company.create data) s
             = [ (duplicateCheckSql, [read data "handle"]);
                 (insertSql,
                  [ read data "handle"; read data "name"; read data "description";
                    read data "numEmployees"; read data "logoUrl" ]) ])
  ∧ CompanyAlt.create data = Company.create data.
Proof.
  split; [reflexivity|]. split; [reflexivity|].
  split.
  { unfold Company.create. eexists _, _. repeat split; reflexivity. }
  split; [|reflexivity].
  intros S db s. unfold outcome, answer, Company.create. simpl. split.
  - destruct (db duplicateCheckSql [read data "handle"] s)
      as [[m | [|row rest]] s1]; simpl.
    + split; [discriminate|]. intros (row & rest & Hrow). discriminate Hrow.
    + split.
      * destruct (db insertSql _ s1) as [[m | result] s2]; discriminate.
      * intros (row & rest & Hrow). discriminate Hrow.
    + split; [by eexists _, _|done].
  - intros s1 s2 result Hcheck Hinsert. rewrite Hcheck. simpl.
    by rewrite Hinsert.
Qed.

(** C8, the counterexample.  Creating [newCompany] on a store whose
    duplicate check finds the handle fails with a [BadRequestError], the
    class [sqlForPartialUpdate] throws for an empty payload: the
    duplicate condition is the bad-request condition. *)
Lemma create_duplicate_is_bad_request :
  run Scripted.db (Company.create newCompany) [inr [handleRow "new"]]
    = (inl (BadRequestError "Duplicate company: new"), [])
  ∧ isBadRequest (BadRequestError "Duplicate company: new") = true
  ∧ sqlForPartialUpdate [] jsToSql = inl (BadRequestError "No data").
Proof. by vm_compute. Qed.

(** C9 (as amended).  [remove] sends the DELETE for the handle, whose
    RETURNING clause yields the deleted key, and nothing else; it throws
    the not-found error exactly when the store answers with no row, and
    when the store answers with a row it returns [undefined]. *)
Theorem remove_statement (handle : value) :
  removeSql
    = "DELETE" +:+ nl +:+
      "           FROM companies" +:+ nl +:+
      "           WHERE handle = $1" +:+ nl +:+
      "           RETURNING handle"
  ∧ (∃ k : list (gmap string value) → prog jsval,
       Company.remove handle = Query removeSql [handle] k
       ∧ k [] = Throw (NotFoundError ("No company: " +:+ ToString handle))
       ∧ ∀ (row : gmap string value) (rest : list (gmap string value)),
           k (row :: rest) = Ret (Prim VUndefined))
  ∧ (∀ (S : Type) (db : executor S) (s : S),
       issued db (Company.remove handle) s = [(removeSql, [handle])]
       ∧ (outcome db (Company.remove handle) s
            = inl (NotFoundError ("No company: " +:+ ToString handle))
          ↔ answer db removeSql [handle] s = inr [])
       ∧ ∀ (s' : S) (row : gmap string value) (rest : list (gmap string value)),
           db removeSql [handle] s = (inr (row :: rest), s') →
           run db (Company.remove handle) s = (inr (Prim VUndefined), s'))
  ∧ CompanyAlt.remove handle = Company.remove handle.
Proof.
  split; [reflexivity|]. split.
  { unfold Company.remove. eexists. repeat split; reflexivity. }
  split; [|reflexivity].
  intros S db s.
  destruct (single_statement db s removeSql [handle]
              (λ result,
                 if negb (truthy (first result))
                 then Throw (NotFoundError ("No company: " +:+ ToString handle))
                 else Ret (Prim VUndefined))
              ("No company: " +:+ ToString handle))
    as [Hissued Hiff]; [done | by eexists |].
  split; [exact Hissued|]. split; [exact Hiff|].
  intros s' row rest Hdb. unfold Company.remove. simpl. by rewrite Hdb.
Qed.

(** C9, the counterexample.  Removing the company [c1] from a store that
    deletes it and answers with its key returns [undefined], not the
    key. *)
Lemma remove_returns_undefined :
  run Scripted.db (Company.remove (VStr "c1")) [inr [handleRow "c1"]]
    = (inr (Prim VUndefined), [])
  ∧ Prim VUndefined ≠ Prim (VStr "c1")
  ∧ Prim VUndefined ≠ Obj (handleRow "c1").
Proof. split; [by vm_compute|]. split; discriminate. Qed.

End Models.

(** ** Further properties of the models *)

Section FindAll.

Import Company CompanyAlt Worded Fixtures Inputs.

(** The builders read three keys and nothing else. *)
Lemma _whereClauseBuilder_ext (f g : gmap string value) :
  read f "minEmployees" = read g "minEmployees" →
  read f "maxEmployees" = read g "maxEmployees" →
  read f "name" = read g "name" →
  _whereClauseBuilder f = _whereClauseBuilder g.
Proof. intros Hmin Hmax Hname. unfold _whereClauseBuilder. by rewrite Hmin, Hmax, Hname. Qed.

Lemma whereClauseBuilder_ext (f g : gmap string value) :
  read f "minEmployees" = read g "minEmployees" →
  read f "maxEmployees" = read g "maxEmployees" →
  read f "name" = read g "name" →
  whereClauseBuilder f = whereClauseBuilder g.
Proof. intros Hmin Hmax Hname. unfold whereClauseBuilder. by rewrite Hmin, Hmax, Hname. Qed.

(** The object literal [{ name, minEmployees, maxEmployees }] that
    [findAll] hands to the builder reads as the filters do. *)
Lemma literal_reads (name minEmployees maxEmployees : value) :
  let o := <["name" := name]>
             (<["minEmployees" := minEmployees]>
                (<["maxEmployees" := maxEmployees]> (∅ : gmap string value))) in
  read o "minEmployees" = minEmployees
  ∧ read o "maxEmployees" = maxEmployees
  ∧ read o "name" = name.
Proof. unfold read. by simplify_map_eq. Qed.

Lemma findAll_unfold `{JsEnv} (f : gmap string value) :
  Company.findAll (Some f)
  = if gt (read f "minEmployees") (read f "maxEmployees")
    then Throw (BadRequestError minMaxMessage)
    else Query (Company.findAllSql (SQL (_whereClauseBuilder f)))
               (parameters (_whereClauseBuilder f))
               (λ companiesRes, Ret (Arr companiesRes)).
Proof.
  unfold Company.findAll. simpl default.
  destruct (literal_reads (read f "name") (read f "minEmployees")
              (read f "maxEmployees")) as (Hmin & Hmax & Hname).
  by rewrite (_whereClauseBuilder_ext _ f Hmin Hmax Hname).
Qed.

Lemma findAllAlt_unfold `{JsEnv} (f : gmap string value) :
  CompanyAlt.findAll (Some f)
  = if gt (read f "minEmployees") (read f "maxEmployees")
    then Throw (BadRequestError minMaxMessage)
    else if (size f =? 0)%nat
    then Query findAllUnfilteredSql [] (λ companiesRes, Ret (Arr companiesRes))
    else Query (CompanyAlt.findAllSql (SQL (whereClauseBuilder f)))
               (parameters (whereClauseBuilder f))
               (λ companiesRes, Ret (Arr companiesRes)).
Proof.
  unfold CompanyAlt.findAll. simpl default.
  destruct (literal_reads (read f "name") (read f "minEmployees")
              (read f "maxEmployees")) as (Hmin & Hmax & Hname).
  by rewrite (whereClauseBuilder_ext _ f Hmin Hmax Hname).
Qed.

Lemma gt_undefined `{JsEnv} (a b : value) :
  a = VUndefined ∨ b = VUndefined → gt a b = false.
Proof. intros [-> | ->]; [done|]. by destruct a; simpl; try destruct (StringToNumber _). Qed.

Lemma read_size (f : gmap string value) (k : string) :
  read f k ≠ VUndefined → (size f =? 0)%nat = false.
Proof.
  intros Hk. apply Nat.eqb_neq. intros Hsize.
  apply map_size_empty_iff in Hsize. subst f. by apply Hk.
Qed.

Lemma applies_reads (f : gmap string value) :
  applies f = false →
  read f "minEmployees" = VUndefined
  ∧ read f "maxEmployees" = VUndefined
  ∧ read f "name" = VUndefined.
Proof.
  unfold applies.
  by destruct (read f "minEmployees"), (read f "maxEmployees"), (read f "name").
Qed.

(** A method that sends one statement and returns the rows of the answer
    ends with those rows or with the failure of the store. *)
Lemma query_rows {S} (db : executor S) (s : S) (sql : string)
    (params : list value) (msg : string) :
  outcome db (Query sql params (λ rows, Ret (Arr rows))) s
    ≠ inl (NotFoundError msg)
  ∧ (length (issued db (Query sql params (λ rows, Ret (Arr rows))) s) ≤ 1)%nat.
Proof.
  unfold outcome. simpl.
  destruct (db sql params s) as [[m | rows] s']; simpl; split; (discriminate || lia).
Qed.

(** X1.  [findAll] (either revision, with or without argument) does one of
    two things: it throws the min/max bad-request error before any
    statement, or it sends a single statement and returns exactly the rows
    of the answer, none included.  It never ends with a not-found error. *)
Theorem findAll_shape `{JsEnv} (arg : option (gmap string value)) :
  (Company.findAll arg
     = Throw (BadRequestError "Min Employees must be less than Max Employees")
   ∨ ∃ (sql : string) (params : list value)
       (k : list (gmap string value) → prog jsval),
       Company.findAll arg = Query sql params k
       ∧ ∀ rows, k rows = Ret (Arr rows))
  ∧ (CompanyAlt.findAll arg
       = Throw (BadRequestError "Min Employees must be less than Max Employees")
     ∨ ∃ (sql : string) (params : list value)
         (k : list (gmap string value) → prog jsval),
         CompanyAlt.findAll arg = Query sql params k
         ∧ ∀ rows, k rows = Ret (Arr rows))
  ∧ ∀ (S : Type) (db : executor S) (s : S) (msg : string),
      outcome db (Company.findAll arg) s ≠ inl (NotFoundError msg)
      ∧ outcome db (CompanyAlt.findAll arg) s ≠ inl (NotFoundError msg)
      ∧ (length (issued db (Company.findAll arg) s) ≤ 1)%nat
      ∧ (length (issued db (CompanyAlt.findAll arg) s) ≤ 1)%nat.
Proof.
  assert (H1 : Company.findAll arg = Company.findAll (Some (default ∅ arg)))
    by (by destruct arg).
  assert (H2 : CompanyAlt.findAll arg = CompanyAlt.findAll (Some (default ∅ arg)))
    by (by destruct arg).
  rewrite H1, H2, findAll_unfold, findAllAlt_unfold.
  set (f := default ∅ arg).
  destruct (gt (read f "minEmployees") (read f "maxEmployees")).
  { split; [by left|]. split; [by left|]. intros S db s msg.
    unfold outcome. simpl. repeat split; (discriminate || lia). }
  split; [right; by eexists _, _, _|].
  split; [right; destruct (size f =? 0)%nat; by eexists _, _, _|].
  intros S db s msg.
  destruct (size f =? 0)%nat; repeat split; apply (query_rows db s _ _ msg).
Qed.

(** X2.  When both bounds are numbers and minEmployees does not exceed
    maxEmployees (the two may be equal), neither revision throws: each
    sends the statement its builder makes from the filters. *)
Theorem findAll_bounds_in_order `{JsEnv}
    (f : gmap string value) (lo hi : Z) :
  read f "minEmployees" = VNum lo →
  read f "maxEmployees" = VNum hi →
  (lo ≤ hi)%Z →
  ∃ k k' : list (gmap string value) → prog jsval,
    Company.findAll (Some f)
      = Query (Company.findAllSql (SQL (_whereClauseBuilder f)))
              (parameters (_whereClauseBuilder f)) k
    ∧ CompanyAlt.findAll (Some f)
      = Query (CompanyAlt.findAllSql (SQL (whereClauseBuilder f)))
              (parameters (whereClauseBuilder f)) k'
    ∧ (∀ rows, k rows = Ret (Arr rows) ∧ k' rows = Ret (Arr rows))
    ∧ ∃ rest : list value,
        parameters (whereClauseBuilder f) = VNum lo :: VNum hi :: rest
        ∧ parameters (_whereClauseBuilder f) = VNum lo :: VNum hi :: rest.
Proof.
  intros Hmin Hmax Hle.
  assert (Hgt : gt (read f "minEmployees") (read f "maxEmployees") = false).
  { rewrite Hmin, Hmax. simpl. by apply Z.ltb_ge. }
  assert (Hsize : (size f =? 0)%nat = false)
    by (apply (read_size f "minEmployees"); by rewrite Hmin).
  rewrite findAll_unfold, findAllAlt_unfold, Hgt, Hsize.
  eexists _, _. split; [reflexivity|]. split; [reflexivity|].
  split; [done|].
  unfold whereClauseBuilder, _whereClauseBuilder. rewrite Hmin, Hmax. simpl.
  destruct (defined (read f "name")); by eexists.
Qed.

(** [{minEmployees: 2, maxEmployees: 2}]: equal bounds are accepted. *)
Lemma findAll_bounds_in_order_witness :
  (2 ≤ 2)%Z
  ∧ ∃ k : list (gmap string value) → prog jsval,
      @Company.findAll Scripted.env (Some equalBounds)
      = Query (Company.findAllSql "WHERE num_employees >= $1 AND num_employees <= $2")
              [VNum 2; VNum 2] k.
Proof.
  assert (Hle : (2 ≤ 2)%Z) by lia.
  split; [exact Hle|].
  destruct (@findAll_bounds_in_order Scripted.env equalBounds 2 2
              eq_refl eq_refl Hle) as (k & _ & Hq & _).
  exists k. exact Hq.
Defined.

(** X3.  When a bound is missing (reads [undefined]) the comparison is
    false whatever the other bound is, so neither revision throws. *)
Theorem findAll_missing_bound `{JsEnv} (f : gmap string value) :
  read f "minEmployees" = VUndefined ∨ read f "maxEmployees" = VUndefined →
  (∃ k : list (gmap string value) → prog jsval,
     Company.findAll (Some f)
       = Query (Company.findAllSql (SQL (_whereClauseBuilder f)))
               (parameters (_whereClauseBuilder f)) k
     ∧ ∀ rows, k rows = Ret (Arr rows))
  ∧ ∀ e : error,
      Company.findAll (Some f) ≠ Throw e
      ∧ CompanyAlt.findAll (Some f) ≠ Throw e.
Proof.
  intros Hmissing.
  rewrite findAll_unfold, findAllAlt_unfold, (gt_undefined _ _ Hmissing).
  split; [by eexists|].
  intros e. split; [done|]. by destruct (size f =? 0)%nat.
Qed.

(** [{minEmployees: 2}] (company.test.js): no upper bound. *)
Lemma findAll_missing_bound_witness :
  ∃ k : list (gmap string value) → prog jsval,
    @Company.findAll Scripted.env (Some minOnly)
    = Query (Company.findAllSql "WHERE num_employees >= $1") [VNum 2] k.
Proof.
  destruct (@findAll_missing_bound Scripted.env minOnly (or_intror eq_refl))
    as [(k & Hq & _) _].
  exists k. exact Hq.
Defined.

(** X4.  Second revision: filters that are not empty but of which none
    applies (only other keys, or keys set to [undefined]) make [findAll]
    send the filtered statement with an empty clause: the keyword WHERE
    followed by no condition, and no parameter. *)
Theorem findAllAlt_empty_clause `{JsEnv} (f : gmap string value) :
  f ≠ ∅ →
  applies f = false →
  ∃ k : list (gmap string value) → prog jsval,
    CompanyAlt.findAll (Some f)
      = Query
          ("SELECT handle," +:+ nl +:+
           "                name," +:+ nl +:+
           "                description," +:+ nl +:+
           "                num_employees AS " +:+ dq +:+ "numEmployees" +:+ dq +:+ "," +:+ nl +:+
           "                logo_url AS " +:+ dq +:+ "logoUrl" +:+ dq +:+ nl +:+
           "           FROM companies" +:+ nl +:+
           "           WHERE " +:+ nl +:+
           "           ORDER BY name")
          [] k
    ∧ ∀ rows, k rows = Ret (Arr rows).
Proof.
  intros Hne Hnone.
  destruct (applies_reads f Hnone) as (Hmin & Hmax & Hname).
  assert (Hsize : (size f =? 0)%nat = false).
  { apply Nat.eqb_neq. intros Hsize. by apply map_size_empty_iff in Hsize. }
  rewrite findAllAlt_unfold, Hsize, (gt_undefined _ _ (or_introl Hmin)).
  rewrite whereClauseBuilder_worded. unfold numbered.
  rewrite (applies_false f Hnone). by eexists.
Qed.

(** [{page: 1}]: not empty, and no filter in it. *)
Lemma findAllAlt_empty_clause_witness :
  noFilter ≠ ∅
  ∧ applies noFilter = false
  ∧ ∃ k : list (gmap string value) → prog jsval,
      @CompanyAlt.findAll Scripted.env (Some noFilter)
      = Query (CompanyAlt.findAllSql EmptyString) [] k.
Proof.
  assert (Hne : noFilter ≠ ∅).
  { intros Heq. apply (f_equal (λ m : gmap string value, m !! "page")) in Heq.
    vm_compute in Heq. discriminate Heq. }
  split; [exact Hne|]. split; [reflexivity|].
  destruct (@findAllAlt_empty_clause Scripted.env noFilter Hne eq_refl)
    as (k & Hq & _).
  exists k. exact Hq.
Defined.

(** X5.  First revision: when no filter applies, whatever other keys the
    object has, [findAll] does what it does without argument: it sends the
    statement with an empty clause, so without WHERE, and no parameter.
    Without argument, or with [{}], the second revision sends its
    unfiltered statement. *)
Theorem findAll_no_filter `{JsEnv} (f : gmap string value) :
  applies f = false →
  Company.findAll (Some f) = Company.findAll None
  ∧ (∃ k : list (gmap string value) → prog jsval,
       Company.findAll None = Query (Company.findAllSql EmptyString) [] k
       ∧ ∀ rows, k rows = Ret (Arr rows))
  ∧ CompanyAlt.findAll (Some ∅) = CompanyAlt.findAll None
  ∧ (∃ k : list (gmap string value) → prog jsval,
       CompanyAlt.findAll None = Query findAllUnfilteredSql [] k
       ∧ ∀ rows, k rows = Ret (Arr rows)).
Proof.
  intros Hnone.
  destruct (applies_reads f Hnone) as (Hmin & Hmax & Hname).
  assert (Hf : Company.findAll (Some f)
               = Query (Company.findAllSql EmptyString) []
                       (λ companiesRes, Ret (Arr companiesRes))).
  { rewrite findAll_unfold, (gt_undefined _ _ (or_introl Hmin)).
    rewrite _whereClauseBuilder_worded, Hnone. unfold numbered.
    by rewrite (applies_false f Hnone). }
  split; [by rewrite Hf|].
  split; [by eexists|]. split; [reflexivity|]. by eexists.
Qed.

Lemma findAll_no_filter_witness :
  applies noFilter = false
  ∧ @Company.findAll Scripted.env (Some noFilter)
    = @Company.findAll Scripted.env None.
Proof.
  split; [reflexivity|].
  exact (proj1 (@findAll_no_filter Scripted.env noFilter eq_refl)).
Defined.

(** X6.  For both builders the clause is empty exactly when the value
    list is, and exactly when no filter applies; there are never more
    than three values. *)
Theorem where_clause_empty_iff (f : gmap string value) :
  (SQL (whereClauseBuilder f) = EmptyString ↔ applies f = false)
  ∧ (parameters (whereClauseBuilder f) = [] ↔ applies f = false)
  ∧ (SQL (_whereClauseBuilder f) = EmptyString ↔ applies f = false)
  ∧ (parameters (_whereClauseBuilder f) = [] ↔ applies f = false)
  ∧ (length (parameters (whereClauseBuilder f)) ≤ 3)%nat
  ∧ (length (parameters (_whereClauseBuilder f)) ≤ 3)%nat.
Proof.
  unfold whereClauseBuilder, _whereClauseBuilder, applies.
  destruct (defined (read f "minEmployees")),
    (defined (read f "maxEmployees")), (defined (read f "name"));
    simpl; repeat split; intros; (done || lia).
Qed.

(** X7.  The text of the clause depends only on which filters are
    present: the values of the filters reach the statement as parameters
    and never as text.  Two filter objects with the same filters present
    get the same clause, whatever their values. *)
Theorem where_clause_text (f g : gmap string value) :
  defined (read f "minEmployees") = defined (read g "minEmployees") →
  defined (read f "maxEmployees") = defined (read g "maxEmployees") →
  defined (read f "name") = defined (read g "name") →
  SQL (whereClauseBuilder f) = SQL (whereClauseBuilder g)
  ∧ SQL (_whereClauseBuilder f) = SQL (_whereClauseBuilder g)
  ∧ length (parameters (whereClauseBuilder f))
    = length (parameters (whereClauseBuilder g)).
Proof.
  intros Hmin Hmax Hname.
  unfold whereClauseBuilder, _whereClauseBuilder.
  rewrite Hmin, Hmax, Hname.
  destruct (defined (read g "minEmployees")),
    (defined (read g "maxEmployees")), (defined (read g "name")); done.
Qed.

Lemma where_clause_text_witness :
  SQL (whereClauseBuilder otherThree) = SQL (whereClauseBuilder allThree)
  ∧ SQL (whereClauseBuilder otherThree)
    = "num_employees >= $1 AND num_employees <= $2 AND name ILIKE $3"
  ∧ parameters (whereClauseBuilder otherThree)
    = [VNum 7; VNull; VStr "_x%' OR 1=1 --%"].
Proof.
  split; [|split; by vm_compute].
  exact (proj1 (where_clause_text otherThree allThree eq_refl eq_refl eq_refl)).
Defined.

(** X8.  For a non-empty payload the SET clause of [sqlForPartialUpdate]
    is not empty, and it depends only on the keys and the table: payloads
    with the same keys in the same order get the same clause, whatever
    their values. *)
Theorem sqlForPartialUpdate_setCols_keys
    (data : list (string * value)) (jsToSql : gmap string value) :
  data ≠ [] →
  ∃ r : update_clause,
    sqlForPartialUpdate data jsToSql = inr r
    ∧ setCols r ≠ EmptyString
    ∧ ∀ data' : list (string * value),
        data'.*1 = data.*1 →
        ∃ r' : update_clause,
          sqlForPartialUpdate data' jsToSql = inr r'
          ∧ setCols r' = setCols r
          ∧ values r' = data'.*2.
Proof.
  intros Hne. eexists. split; [by apply sqlForPartialUpdate_nonempty|].
  simpl. split.
  - destruct data as [|[key v] data]; [done|]. simpl.
    match goal with |- context [imap ?g ?l] => destruct (imap g l) end;
      unfold fragment, dq; simpl; discriminate.
  - intros data' Hkeys.
    assert (Hne' : data' ≠ []).
    { intros ->. destruct data; [done|discriminate Hkeys]. }
    eexists. split; [by apply sqlForPartialUpdate_nonempty|].
    simpl. by rewrite Hkeys.
Qed.

Lemma sqlForPartialUpdate_setCols_keys_witness :
  [("name", VStr "New")] ≠ []
  ∧ ∃ r r' : update_clause,
      sqlForPartialUpdate [("name", VStr "New")] Company.jsToSql = inr r
      ∧ sqlForPartialUpdate [("name", VNull)] Company.jsToSql = inr r'
      ∧ setCols r' = setCols r.
Proof.
  assert (Hne : [("name", VStr "New")] ≠ @nil (string * value)) by discriminate.
  split; [exact Hne|].
  destruct (sqlForPartialUpdate_setCols_keys
              [("name", VStr "New")] Company.jsToSql Hne)
    as (r & Hr & _ & Hsame).
  destruct (Hsame [("name", VNull)] eq_refl) as (r' & Hr' & Heq & _).
  by exists r, r'.
Defined.

Lemma applies_size (f : gmap string value) :
  applies f = true → (size f =? 0)%nat = false.
Proof.
  unfold applies. intros Happ.
  destruct (defined (read f "minEmployees")) eqn:Hmin;
    [apply (read_size f "minEmployees"); by intros Heq; rewrite Heq in Hmin|].
  destruct (defined (read f "maxEmployees")) eqn:Hmax;
    [apply (read_size f "maxEmployees"); by intros Heq; rewrite Heq in Hmax|].
  destruct (defined (read f "name")) eqn:Hname; [|done].
  apply (read_size f "name"). by intros Heq; rewrite Heq in Hname.
Qed.

(** X15.  When a filter applies and the bounds pass the comparison, the
    two revisions send statements with the same conditions, the keyword
    WHERE once in each (from the builder in the first revision, from
    [findAll] in the second), and the same parameters. *)
Theorem findAll_one_keyword `{JsEnv} (f : gmap string value) :
  applies f = true →
  gt (read f "minEmployees") (read f "maxEmployees") = false →
  ∃ (conditions : string) (k k' : list (gmap string value) → prog jsval),
    conditions = SQL (whereClauseBuilder f)
    ∧ conditions ≠ EmptyString
    ∧ Company.findAll (Some f)
      = Query
          ("SELECT handle," +:+ nl +:+
           "              name," +:+ nl +:+
           "              description," +:+ nl +:+
           "              num_employees AS " +:+ dq +:+ "numEmployees" +:+ dq +:+ "," +:+ nl +:+
           "              logo_url AS " +:+ dq +:+ "logoUrl" +:+ dq +:+ nl +:+
           "          FROM companies" +:+ nl +:+
           "          WHERE " +:+ conditions +:+ " " +:+ nl +:+
           "          ORDER BY name")
          (parameters (whereClauseBuilder f)) k
    ∧ CompanyAlt.findAll (Some f)
      = Query
          ("SELECT handle," +:+ nl +:+
           "                name," +:+ nl +:+
           "                description," +:+ nl +:+
           "                num_employees AS " +:+ dq +:+ "numEmployees" +:+ dq +:+ "," +:+ nl +:+
           "                logo_url AS " +:+ dq +:+ "logoUrl" +:+ dq +:+ nl +:+
           "           FROM companies" +:+ nl +:+
           "           WHERE " +:+ conditions +:+ nl +:+
           "           ORDER BY name")
          (parameters (whereClauseBuilder f)) k'
    ∧ ∀ rows, k rows = Ret (Arr rows) ∧ k' rows = Ret (Arr rows).
Proof.
  intros Happ Hgt.
  rewrite findAll_unfold, findAllAlt_unfold, Hgt, (applies_size f Happ).
  rewrite _whereClauseBuilder_worded, Happ.
  exists (SQL (whereClauseBuilder f)).
  rewrite whereClauseBuilder_worded. simpl SQL. simpl parameters.
  eexists _, _. split; [reflexivity|]. split.
  - revert Happ. unfold applies, numbered, appended, candidates. simpl.
    destruct (defined (read f "minEmployees")),
      (defined (read f "maxEmployees")), (defined (read f "name"));
      simpl; try discriminate; done.
  - split; [reflexivity|]. split; [reflexivity|]. done.
Qed.

Lemma findAll_one_keyword_witness :
  applies allThree = true
  ∧ ∃ k : list (gmap string value) → prog jsval,
      @CompanyAlt.findAll Scripted.env (Some allThree)
      = Query
          (CompanyAlt.findAllSql
             "num_employees >= $1 AND num_employees <= $2 AND name ILIKE $3")
          [VNum 1; VNum 2; VStr "_2%"] k.
Proof.
  split; [reflexivity|].
  destruct (@findAll_one_keyword Scripted.env allThree eq_refl eq_refl)
    as (conditions & k & k' & -> & _ & _ & Hq & _).
  exists k'. exact Hq.
Defined.

End FindAll.

Section Methods.

Import Company Worded Fixtures Inputs.

(** X9.  [get] sends one statement, the SELECT of the company by handle,
    and no other; it throws the not-found error exactly when the store
    answers with no row, and otherwise returns the first row as it is. *)
Theorem get_statement (handle : value) :
  (∃ k : list (gmap string value) → prog jsval,
     Company.get handle = Query getSql [handle] k
     ∧ k [] = Throw (NotFoundError ("No company: " +:+ ToString handle))
     ∧ ∀ (row : gmap string value) (rest : list (gmap string value)),
         k (row :: rest) = Ret (Obj row))
  ∧ (∀ (S : Type) (db : executor S) (s : S),
       issued db (Company.get handle) s = [(getSql, [handle])]
       ∧ (outcome db (Company.get handle) s
            = inl (NotFoundError ("No company: " +:+ ToString handle))
          ↔ answer db getSql [handle] s = inr [])
       ∧ ∀ (s' : S) (row : gmap string value) (rest : list (gmap string value)),
           db getSql [handle] s = (inr (row :: rest), s') →
           run db (Company.get handle) s = (inr (Obj row), s'))
  ∧ CompanyAlt.get handle = Company.get handle.
Proof.
  split.
  { unfold Company.get. eexists. repeat split; reflexivity. }
  split; [|reflexivity].
  intros S db s.
  destruct (single_statement db s getSql [handle]
              (λ companyRes,
                 if negb (truthy (first companyRes))
                 then Throw (NotFoundError ("No company: " +:+ ToString handle))
                 else Ret (first companyRes))
              ("No company: " +:+ ToString handle))
    as [Hissued Hiff]; [done | by eexists |].
  split; [exact Hissued|]. split; [exact Hiff|].
  intros s' row rest Hdb. unfold Company.get. simpl. by rewrite Hdb.
Qed.

(** X10.  A run of [update] ends with a bad-request error exactly when
    the payload is empty, and the message is then "No data": the program
    is the throw itself, so no statement is sent and the store stays as it
    was.  With a non-empty payload exactly one statement is sent. *)
Theorem update_no_data (handle : value) (data : list (string * value)) :
  (Company.update handle data = Throw (BadRequestError "No data") ↔ data = [])
  ∧ ∀ (S : Type) (db : executor S) (s : S),
      (∀ msg : string,
         outcome db (Company.update handle data) s = inl (BadRequestError msg)
         ↔ data = [] ∧ msg = "No data")
      ∧ (data = [] →
         run db (Company.update handle data) s
           = (inl (BadRequestError "No data"), s)
         ∧ issued db (Company.update handle data) s = [])
      ∧ (data ≠ [] → length (issued db (Company.update handle data) s) = 1%nat).
Proof.
  destruct data as [|kv data].
  - split; [done|]. intros S db s. split; [|split; [done|done]].
    intros msg. unfold outcome. simpl. split.
    + by intros [= <-].
    + by intros [_ ->].
  - unfold Company.update.
    rewrite (sqlForPartialUpdate_nonempty (kv :: data) jsToSql) by done.
    split; [split; discriminate|].
    intros S db s. unfold outcome. simpl.
    destruct (db _ _ s) as [[m | [|row rest]] s']; simpl;
      (split; [intros msg; split; [discriminate | by intros [? _]]|]);
      (split; [done|]); done.
Qed.

Lemma company_column (key : string) :
  column jsToSql key
  = if String.eqb key "numEmployees" then "num_employees"
    else if String.eqb key "logoUrl" then "logo_url"
    else match inherited key with
         | Some text => text
         | None => key
         end.
Proof.
  unfold column, jsToSql.
  destruct (String.eqb_spec key "numEmployees") as [-> | Hn]; [done|].
  destruct (String.eqb_spec key "logoUrl") as [-> | Hl]; [done|].
  by rewrite !lookup_insert_ne, lookup_empty by done.
Qed.

(** X11.  In the statement of [update] the [i]-th assignment (from 0) of
    the SET clause is the quoted column of the [i]-th key with placeholder
    [$(i+1)]: [num_employees] for numEmployees, [logo_url] for logoUrl,
    the text of the member for a key that names a member of
    [Object.prototype] (constructor, toString, ...), and for every other
    key the key itself, as it is written. *)
Theorem update_columns (handle : value) (data : list (string * value)) :
  data ≠ [] →
  ∃ (cols : list string) (k : list (gmap string value) → prog jsval),
    Company.update handle data
      = Query (updateSql (join ", " cols) ("$" +:+ pretty (length data + 1)%nat))
              (data.*2 ++ [handle]) k
    ∧ length cols = length data
    ∧ ∀ (i : nat) (key : string) (v : value),
        data !! i = Some (key, v) →
        cols !! i
        = Some (dq +:+
                (if String.eqb key "numEmployees" then "num_employees"
                 else if String.eqb key "logoUrl" then "logo_url"
                 else match inherited key with
                      | Some text => text
                      | None => key
                      end)
                +:+ dq +:+ "=$" +:+ pretty (S i)).
Proof.
  intros Hne.
  exists (imap (λ idx key, fragment (column jsToSql key) idx) data.*1).
  eexists. split; [|split].
  - unfold Company.update.
    rewrite (sqlForPartialUpdate_nonempty data jsToSql Hne).
    simpl values. simpl setCols. rewrite length_fmap. reflexivity.
  - by rewrite length_imap, length_fmap.
  - intros i key v Hi.
    rewrite list_lookup_imap, list_lookup_fmap, Hi. simpl.
    by rewrite company_column.
Qed.

(** [{numEmployees: 10, handle: "c9", constructor: "x"}]: the first key
    is translated, the second is taken as a column as it is, and the third
    finds the inherited constructor. *)
Lemma update_columns_witness :
  [("numEmployees", VNum 10); ("handle", VStr "c9"); ("constructor", VStr "x")] ≠ []
  ∧ ∃ k : list (gmap string value) → prog jsval,
      Company.update (VStr "c1")
        [("numEmployees", VNum 10); ("handle", VStr "c9"); ("constructor", VStr "x")]
      = Query
          (updateSql
             (dq +:+ "num_employees" +:+ dq +:+ "=$1, "
                 +:+ dq +:+ "handle" +:+ dq +:+ "=$2, "
                 +:+ dq +:+ "function Object() { [native code] }" +:+ dq +:+ "=$3")
             "$4")
          [VNum 10; VStr "c9"; VStr "x"; VStr "c1"] k.
Proof.
  assert (Hne : [("numEmployees", VNum 10); ("handle", VStr "c9");
                 ("constructor", VStr "x")]
                ≠ @nil (string * value)) by discriminate.
  split; [exact Hne|].
  destruct (update_columns (VStr "c1")
              [("numEmployees", VNum 10); ("handle", VStr "c9");
               ("constructor", VStr "x")] Hne)
    as (cols & k & Hq & Hlen & Hith).
  pose proof (Hith 0%nat "numEmployees" (VNum 10) eq_refl) as H0.
  pose proof (Hith 1%nat "handle" (VStr "c9") eq_refl) as H1.
  pose proof (Hith 2%nat "constructor" (VStr "x") eq_refl) as H2.
  destruct cols as [|c0 [|c1 [|c2 [|c3 cols]]]]; try discriminate Hlen.
  injection H0 as ->. injection H1 as ->. injection H2 as ->.
  exists k. rewrite Hq. by vm_compute.
Defined.

(** X12.  [create] sends the duplicate check first and at most one more
    statement: the INSERT is sent exactly when the check is answered with
    no row.  After a check that finds a row the run ends with the
    bad-request error, in the state the check left. *)
Theorem create_statements (data : gmap string value)
    (S : Type) (db : executor S) (s : S) :
  (issued db (Company.create data) s
     = [ (duplicateCheckSql, [read data "handle"]) ]
   ∨ issued db (Company.create data) s
     = [ (duplicateCheckSql, [read data "handle"]);
         (insertSql,
          [ read data "handle"; read data "name"; read data "description";
            read data "numEmployees"; read data "logoUrl" ]) ])
  ∧ (In insertSql (issued db (Company.create data) s).*1
     ↔ answer db duplicateCheckSql [read data "handle"] s = inr [])
  ∧ ∀ (s1 : S) (row : gmap string value) (rest : list (gmap string value)),
      db duplicateCheckSql [read data "handle"] s = (inr (row :: rest), s1) →
      run db (Company.create data) s
      = (inl (BadRequestError
                ("Duplicate company: " +:+ ToString (read data "handle"))), s1).
Proof.
  assert (Hsql : insertSql ≠ duplicateCheckSql) by (by vm_compute).
  unfold answer, Company.create. simpl.
  destruct (db duplicateCheckSql [read data "handle"] s)
    as [[m | [|row rest]] s1]; simpl.
  - split; [by left|]. split; [split|].
    + intros [Heq | []]. by destruct Hsql.
    + discriminate.
    + intros s0 row rest Heq. discriminate Heq.
  - assert (Hlast : ∀ r : (string + list (gmap string value)) * S,
              (let (a, _) := r in
               match a with
               | inl _ => []
               | inr _ => @nil (string * list value)
               end) = []) by (by intros [[?|?] ?]).
    rewrite Hlast.
    split; [by right|]. split; [split|].
    + done.
    + intros _. right. by left.
    + intros s0 row rest Heq. discriminate Heq.
  - split; [by left|]. split; [split|].
    + intros [Heq | []]. by destruct Hsql.
    + discriminate.
    + intros s0 row' rest' Heq. by injection Heq as -> -> ->.
Qed.

(** X13.  [create] catches nothing: when the check finds no row and the
    INSERT then fails in the store (as it does on the unique constraint
    when the handle was taken in between), the run ends with the failure
    of the store, which is not the bad-request error of a duplicate. *)
Theorem create_insert_failure (data : gmap string value)
    (S : Type) (db : executor S) (s s1 s2 : S) (msg : string) :
  db duplicateCheckSql [read data "handle"] s = (inr [], s1) →
  db insertSql
     [ read data "handle"; read data "name"; read data "description";
       read data "numEmployees"; read data "logoUrl" ] s1
    = (inl msg, s2) →
  run db (Company.create data) s = (inl (StoreError msg), s2)
  ∧ isBadRequest (StoreError msg) = false.
Proof.
  intros Hcheck Hinsert. unfold Company.create. simpl.
  rewrite Hcheck. simpl. by rewrite Hinsert.
Qed.

Lemma create_insert_failure_witness :
  run Scripted.db (Company.create newCompany)
    [inr []; inl "duplicate key value violates unique constraint"]
  = (inl (StoreError "duplicate key value violates unique constraint"), []).
Proof.
  exact (proj1 (create_insert_failure newCompany Scripted.answers Scripted.db
                  [inr []; inl "duplicate key value violates unique constraint"]
                  [inl "duplicate key value violates unique constraint"] []
                  "duplicate key value violates unique constraint"
                  eq_refl eq_refl)).
Defined.

(** X14.  [Job.create] sends one INSERT with the title, the salary, the
    equity and the company handle, in that order, and returns the first
    row of the answer.  A salary or an equity that reads [undefined] is
    sent as [null], any other value (also [null]) as it is; the title and
    the company handle have no default.  It throws nothing by itself. *)
Theorem job_create_statement (data : gmap string value) :
  ∃ (salary equity : value) (k : list (gmap string value) → prog jsval),
    Job.create data
      = Query Job.insertSql
          [read data "title"; salary; equity; read data "company_handle"] k
    ∧ (∀ rows, k rows = Ret (first rows))
    ∧ salary ≠ VUndefined
    ∧ equity ≠ VUndefined
    ∧ (read data "salary" = VUndefined → salary = VNull)
    ∧ (read data "salary" ≠ VUndefined → salary = read data "salary")
    ∧ (read data "equity" = VUndefined → equity = VNull)
    ∧ (read data "equity" ≠ VUndefined → equity = read data "equity")
    ∧ ∀ (S : Type) (db : executor S) (s : S),
        issued db (Job.create data) s
          = [ (Job.insertSql,
               [read data "title"; salary; equity; read data "company_handle"]) ]
        ∧ ∀ msg : string,
            outcome db (Job.create data) s ≠ inl (BadRequestError msg)
            ∧ outcome db (Job.create data) s ≠ inl (NotFoundError msg).
Proof.
  unfold Job.create. eexists _, _, _. split; [reflexivity|].
  split; [done|].
  assert (Hrun : ∀ (S : Type) (db : executor S) (s : S) (params : list value),
            issued db (Query Job.insertSql params (λ result, Ret (first result))) s
              = [(Job.insertSql, params)]
            ∧ ∀ msg : string,
                outcome db (Query Job.insertSql params
                                  (λ result, Ret (first result))) s
                  ≠ inl (BadRequestError msg)
                ∧ outcome db (Query Job.insertSql params
                                    (λ result, Ret (first result))) s
                  ≠ inl (NotFoundError msg)).
  { intros S db s params. unfold outcome. simpl.
    destruct (db Job.insertSql params s) as [[m | rows] s']; simpl;
      (split; [done|]); intros msg; split; discriminate. }
  destruct (read data "salary"), (read data "equity"); simpl;
    repeat (split; [done|]); intros S db st; apply Hrun.
Qed.

End Methods.

(** ** The test suites, replayed on the embedding *)

Section Tests.

Import Company CompanyAlt Fixtures.

(** sql.test.js, "works". *)
Example test_sql_works :
  sqlForPartialUpdate
    [("firstName", VStr "Aliya"); ("age", VNum 32)]
    (<["firstName" := VStr "first_name"]> (<["age" := VStr "age"]> ∅))
  = inr {| setCols := dq +:+ "first_name" +:+ dq +:+ "=$1, "
                        +:+ dq +:+ "age" +:+ dq +:+ "=$2";
           values := [VStr "Aliya"; VNum 32] |}.
Proof. by vm_compute. Qed.

(** company.test.js, "works: no name". *)
Example test_where_no_name :
  whereClauseBuilder
    (<["minEmployees" := VNum 1]> (<["maxEmployees" := VNum 2]> ∅))
  = {| SQL := "num_employees >= $1 AND num_employees <= $2";
       parameters := [VNum 1; VNum 2] |}.
Proof. by vm_compute. Qed.

(** company.test.js, "works: no min". *)
Example test_where_no_min :
  whereClauseBuilder
    (<["name" := VStr "2"]> (<["maxEmployees" := VNum 2]> ∅))
  = {| SQL := "num_employees <= $1 AND name ILIKE $2";
       parameters := [VNum 2; VStr "_2%"] |}.
Proof. by vm_compute. Qed.

(** The example of the docstring of [_whereClauseBuilder]. *)
Example test_where_docstring :
  _whereClauseBuilder
    (<["minEmployees" := VNum 2]>
       (<["maxEmployees" := VNum 20]> (<["name" := VStr "Com"]> ∅)))
  = {| SQL := "WHERE num_employees >= $1 AND num_employees <= $2 AND name ILIKE $3";
       parameters := [VNum 2; VNum 20; VStr "_Com%"] |}.
Proof. by vm_compute. Qed.

(** company.test.js, create "works": the check finds nothing and the
    INSERT answers with the new row. *)
Example test_create_works :
  run Scripted.db (Company.create newCompany) [inr []; inr [newCompany]]
  = (inr (Obj newCompany), []).
Proof. by vm_compute. Qed.

(** company.test.js, "works: filter maxEmployees=2": the statement the
    first revision sends. *)
Example test_findAll_max :
  issued Scripted.db
    (@Company.findAll Scripted.env (Some (<["maxEmployees" := VNum 2]> ∅)))
    [inr []]
  = [ (Company.findAllSql "WHERE num_employees <= $1", [VNum 2]) ].
Proof. by vm_compute. Qed.

(** company.test.js, update "bad request with no data". *)
Example test_update_no_data :
  Company.update (VStr "c1") [] = Throw (BadRequestError "No data").
Proof. reflexivity. Qed.

(** company.test.js, remove "not found if no such company". *)
Example test_remove_not_found :
  run Scripted.db (Company.remove (VStr "nope")) [inr []]
  = (inl (NotFoundError "No company: nope"), []).
Proof. by vm_compute. Qed.

End Tests.
